(** * Sawtooth: marketplace communication client and the batch CLI command

    A shallow embedding of
    - [extensions/mktplace/mktplace/mktplace_communication.py]
      (class [MarketPlaceCommunication]: [headrequest], [getmsg], [postmsg]);
    - [cli/sawtooth_cli/batch.py] ([do_batch] and its [parse_batch_row]).

    Python values are an inductive type with dictionaries as finite maps,
    raised exceptions are an error result, the mutable [_cookie] attribute
    and the calls handed to [opener.open] are threaded as explicit state. *)

From Stdlib Require Import ZArith Ascii String List Lia.
From stdpp Require Import base option gmap strings list fin_maps pretty.

#[local] Set Warnings "-register-all".
Local Open Scope string_scope.
Local Open Scope Z_scope.

(** ** Python runtime: exceptions, values, string methods *)

Module Py.

(** Exceptions that the two modules raise or let through. *)
Inductive exn : Type :=
| MessageException (msg : string)
| InvalidTransactionError (msg : string)
| CliException (msg : string)
| AssertionError (msg : string)
| KeyError (key : string)
| TypeError (msg : string)
| AttributeError (msg : string)
| ForeignError (msg : string).

(** Outcome of evaluating an expression: a value or a raised exception. *)
Inductive result (A : Type) : Type :=
| Return (a : A)
| Raise (e : exn).
Arguments Return {A} a.
Arguments Raise {A} e.

(** Sequencing: the first raised exception ends the evaluation. *)
#[export] Instance result_bind : MBind result := fun A B k r =>
  match r with
  | Return a => k a
  | Raise e => Raise e
  end.

#[export] Instance result_ret : MRet result := fun A a => Return a.

Fixpoint mapM {A B} (f : A -> result B) (l : list A) : result (list B) :=
  match l with
  | [] => Return []
  | a :: l' => b ← f a; bs ← mapM f l'; Return (b :: bs)
  end.

(** Values as they come out of the JSON decoder of the REST client. *)
Inductive pyval : Type :=
| PNone
| PBool (b : bool)
| PInt (n : Z)
| PStr (s : string)
| PList (l : list pyval)
| PDict (d : gmap string pyval).

(** [s.find(sub)]: lowest index of an occurrence of [sub], or [-1]. *)
Fixpoint find_from (i : Z) (sub s : string) : Z :=
  if String.prefix sub s then i
  else match s with
       | EmptyString => -1
       | String _ s' => find_from (i + 1) sub s'
       end.

Definition find (s sub : string) : Z := find_from 0 sub s.

(** [sub in s] for two strings. *)
Definition str_contains (sub s : string) : bool := 0 <=? find s sub.

(** Truth value of an integer in a condition. *)
Definition truthy_int (n : Z) : bool := negb (n =? 0).

(** The test [if x:] on an attribute holding [None] or a string: it
    succeeds on a non-empty string, which [held] then gives. *)
Definition held (o : option string) : option string :=
  match o with
  | Some s => if String.eqb s EmptyString then None else Some s
  | None => None
  end.

(** [s.lstrip(c)], [s.rstrip(c)] and [s.strip(c)] for a one-character set. *)
Fixpoint lstrip (c : ascii) (s : string) : string :=
  match s with
  | String a s' => if Ascii.eqb a c then lstrip c s' else s
  | EmptyString => EmptyString
  end.

Fixpoint rstrip (c : ascii) (s : string) : string :=
  match s with
  | String a s' =>
      match rstrip c s' with
      | EmptyString => if Ascii.eqb a c then EmptyString else String a EmptyString
      | r => String a r
      end
  | EmptyString => EmptyString
  end.

Definition strip (c : ascii) (s : string) : string := rstrip c (lstrip c s).

(** [s.upper()] on ASCII letters. *)
Definition upper_ascii (a : ascii) : ascii :=
  let n := nat_of_ascii a in
  if ((97 <=? n) && (n <=? 122))%nat then ascii_of_nat (n - 32) else a.

Fixpoint upper (s : string) : string :=
  match s with
  | String a s' => String (upper_ascii a) (upper s')
  | EmptyString => EmptyString
  end.

(** ['{0}'.format(n)] for an integer. *)
Definition str_of_int (n : Z) : string := pretty n.

(** [len(v)]. *)
Definition len (v : pyval) : result Z :=
  match v with
  | PStr s => Return (Z.of_nat (String.length s))
  | PList l => Return (Z.of_nat (List.length l))
  | PDict d => Return (Z.of_nat (size d))
  | _ => Raise (TypeError "object has no len()")
  end.

(** [v[k]] with a string subscript. *)
Definition getitem (v : pyval) (k : string) : result pyval :=
  match v with
  | PDict d =>
      match d !! k with
      | Some x => Return x
      | None => Raise (KeyError k)
      end
  | PStr _ => Raise (TypeError "string indices must be integers")
  | PList _ => Raise (TypeError "list indices must be integers")
  | _ => Raise (TypeError "object is not subscriptable")
  end.

(** [k in v] for a string [k]: a key of a dictionary, a substring of a
    string, an element of a list. *)
Definition contains (v : pyval) (k : string) : result bool :=
  match v with
  | PDict d => Return (bool_decide (is_Some (d !! k)))
  | PStr s => Return (str_contains k s)
  | PList l =>
      Return (existsb (fun x => match x with
                                | PStr s => String.eqb s k
                                | _ => false
                                end) l)
  | _ => Raise (TypeError "argument is not iterable")
  end.

(** [v.get(k, dflt)]. *)
Definition get (v : pyval) (k : string) (dflt : pyval) : result pyval :=
  match v with
  | PDict d => Return (default dflt (d !! k))
  | _ => Raise (AttributeError "object has no attribute 'get'")
  end.

End Py.

(** ** mktplace_communication.py *)

Module MktComm.
Import Py.

Inductive Method : Type := HEAD | GET | POST.

(** A header value of an outgoing request: a string, or the integer that
    [postmsg] passes as ['Content-Length']. *)
Inductive hval : Type :=
| HStr (s : string)
| HInt (n : Z).

(** [urllib2.Request]: method, URL, header dictionary and optional body. *)
Record Request : Type := mkRequest {
  get_method : Method;
  get_full_url : string;
  headers : gmap string hval;
  get_data : option string
}.

Definition add_header (key : string) (val : string) (request : Request) : Request :=
  mkRequest (get_method request) (get_full_url request)
            (<[key := HStr val]> (headers request)) (get_data request).

(** One [opener.open(request, timeout=...)]. *)
Record Call : Type := mkCall {
  call_request : Request;
  call_timeout : Z
}.

(** What [opener.open] returns on success. *)
Record Response : Type := mkResponse {
  code : Z;
  info : gmap string string;
  content : string
}.

(** [urllib2.HTTPError]: the status code and the unread part of the body;
    the object is shared by every handler that reads it. *)
Record HTTPError : Type := mkHTTPError {
  err_code : Z;
  err_fp : string
}.

(** [err.read()] gives what is left of the body and leaves nothing. *)
Definition read (err : HTTPError) : string * HTTPError :=
  (err_fp err, mkHTTPError (err_code err) EmptyString).

(** The ways [opener.open] ends: a response, or one of the three classes
    the [except] clauses tell apart. *)
Inductive Outcome : Type :=
| Responded (response : Response)
| RaisedHTTPError (err : HTTPError)
| RaisedURLError (reason : string)
| RaisedOther.

(** The instance attributes that the methods use. *)
Record MarketPlaceCommunication : Type := mkClient {
  BaseURL : string;
  _cookie : option string
}.

(** The client together with the calls dispatched so far, oldest first. *)
Record World : Type := mkWorld {
  self : MarketPlaceCommunication;
  calls : list Call
}.

Definition set_cookie (v : option string) (w : World) : World :=
  mkWorld (mkClient (BaseURL (self w)) v) (calls w).

Definition GET_HEADER : gmap string hval := {[ "Accept" := HStr "application/cbor" ]}.

(** [__init__] *)
Definition init (baseurl : string) : MarketPlaceCommunication :=
  mkClient (rstrip "/" baseurl) None.

(** [_print_error_information_from_server]: on a 400 it reads the body for
    the log; the error object comes back with its body consumed. *)
Definition _print_error_information_from_server (err : HTTPError) : HTTPError :=
  if err_code err =? 400 then snd (read err) else err.

Section Client.

(** The transport and the remote server: how each dispatched call ends. *)
Variable net : Call -> Outcome.

(** The codecs of [gossip.common], which may raise on a malformed body. *)
Variable json2dict cbor2dict : string -> result pyval.
Variable dict2cbor : pyval -> string.

Definition opener_open (request : Request) (timeout : Z) (w : World) : Outcome * World :=
  let c := mkCall request timeout in
  (net c, mkWorld (self w) (calls w ++ [c])%list).

Definition headrequest (path : string) (w : World) : result pyval * World :=
  let url := BaseURL (self w) ++ "/" ++ strip "/" path in
  let request := mkRequest HEAD url ∅ None in
  let dispatch (request : Request) (w : World) :=
    let '(o, w) := opener_open request 30 w in
    (match o with
     | Responded response => Return (PInt (code response))
     | RaisedHTTPError err => Return (PInt (err_code err))
     | RaisedURLError reason =>
         Raise (MessageException ("operation failed: " ++ reason))
     | RaisedOther => Raise (MessageException "no response from server")
     end, w) in
  if String.eqb path "/prevalidation" then
    match held (_cookie (self w)) with
    | Some c => dispatch (add_header "cookie" c request) (set_cookie None w)
    | None => (Return (PStr "Session is not enabled"), w)
    end
  else dispatch request w.

(** The three branches on the response's ['Content-Type']; [other] is what
    the last branch returns. *)
Definition decode (response : Response) (other : pyval) : result pyval :=
  let content := content response in
  let encoding := info response !! "Content-Type" in
  if bool_decide (encoding = Some "application/json") then
    value ← json2dict content; Return value
  else if bool_decide (encoding = Some "application/cbor") then
    value ← cbor2dict content; Return value
  else Return other.

Definition getmsg (path : string) (w : World) : result pyval * World :=
  let url := BaseURL (self w) ++ "/" ++ strip "/" path in
  let request := mkRequest GET url GET_HEADER None in
  let request :=
    if String.eqb path "/prevalidation" then
      match held (_cookie (self w)) with
      | Some c => add_header "cookie" c request
      | None => request
      end
    else request in
  let '(o, w) := opener_open request 10 w in
  (match o with
   | RaisedHTTPError err =>
       let err := _print_error_information_from_server err in
       Raise (MessageException
                ("operation failed with response: " ++ str_of_int (err_code err)))
   | RaisedURLError reason =>
       Raise (MessageException ("operation failed: " ++ reason))
   | RaisedOther => Raise (MessageException "no response from server")
   | Responded response => decode response (PStr (content response))
   end, w).

Definition postmsg (msgtype : string) (info : pyval) (path : string) (w : World)
  : result pyval * World :=
  let data := dict2cbor info in
  let datalen := Z.of_nat (String.length data) in
  let url := BaseURL (self w) ++ path ++ msgtype in
  let request :=
    mkRequest POST url
              {[ "Content-Type" := HStr "application/cbor";
                 "Content-Length" := HInt datalen ]}
              (Some data) in
  let '(o, w) :=
    if String.eqb path "/prevalidation" then
      let request :=
        match held (_cookie (self w)) with
        | Some c => add_header "cookie" c request
        | None => request
        end in
      let '(o, w) := opener_open request 10 w in
      match o with
      | Responded response =>
          match held (_cookie (self w)) with
          | None => (o, set_cookie (MktComm.info response !! "Set-Cookie") w)
          | Some _ => (o, w)
          end
      | _ => (o, w)
      end
    else opener_open request 10 w in
  (match o with
   | RaisedHTTPError err =>
       let err := _print_error_information_from_server err in
       let generic :=
         Raise (MessageException
                  ("operation failed with response: " ++ str_of_int (err_code err))) in
       if err_code err =? 400 then
         let '(err_content, err) := read err in
         if truthy_int (find err_content "InvalidTransactionError") then
           Raise (InvalidTransactionError ("Error from server: " ++ err_content))
         else generic
       else generic
   | RaisedURLError reason =>
       Raise (MessageException ("operation failed: " ++ reason))
   | RaisedOther => Raise (MessageException "no response from server")
   | Responded response => decode response PNone
   end, w).

End Client.

(** [c] is the call that an operation taking [w] to [w'] dispatched. *)
Definition sends (w w' : World) (c : Call) : Prop := calls w' = (calls w ++ [c])%list.

End MktComm.

(** ** batch.py *)

Module Batch.
Import Py.

(** The attributes of the parsed arguments that [do_batch] reads. *)
Record Args : Type := mkArgs {
  url : option string;
  user : option string;
  subcommand : string;
  format : string;
  key : option string;
  batch_id : string
}.

(** The two queries of [rest_client.RestClient] that [do_batch] calls. *)
Record RestClientT : Type := mkRestClient {
  list_batches : result (list pyval);
  get_batch : string -> result pyval
}.

(** A call to a printer of [format_utils], with its arguments; the row
    function handed to the first two is always [parse_batch_row]. *)
Inductive fmt_call : Type :=
| print_terminal_table (headers : list string) (batches : list pyval)
| print_csv (headers : list string) (batches : list pyval)
| print_yaml (data : pyval)
| print_json (data : pyval).

(** A command: its result and the printer calls it made, in order. *)
Record cmd (A : Type) : Type := mkCmd {
  outcome : result A;
  printed : list fmt_call
}.
Arguments mkCmd {A} outcome printed.
Arguments outcome {A} c.
Arguments printed {A} c.

#[export] Instance cmd_ret : MRet cmd := fun A a => mkCmd (Return a) [].

#[export] Instance cmd_bind : MBind cmd := fun A B k c =>
  match outcome c with
  | Return a => mkCmd (outcome (k a)) (printed c ++ printed (k a))
  | Raise e => mkCmd (Raise e) (printed c)
  end.

Definition lift {A} (r : result A) : cmd A := mkCmd r [].
Definition raise {A} (e : exn) : cmd A := mkCmd (Raise e) [].
Definition call (p : fmt_call) : cmd unit := mkCmd (Return tt) [p].

Definition dquote : string := String (ascii_of_nat 34) EmptyString.

Definition keys : list string := ["batch_id"; "txns"; "signer"].

(** The inner function of the list branch. *)
Definition parse_batch_row (batch : pyval) : result (pyval * Z * pyval) :=
  header_signature ← getitem batch "header_signature";
  transactions ← get batch "transactions" (PList []);
  n ← len transactions;
  header ← getitem batch "header";
  signer_pubkey ← getitem header "signer_pubkey";
  Return (header_signature, n, signer_pubkey).

(** [{k: d for k, d in zip(keys, parse_batch_row(b))}] *)
Definition row_dict (b : pyval) : result pyval :=
  row ← parse_batch_row b;
  let '(batch_id, txns, signer) := row in
  Return (PDict (list_to_map (zip keys [batch_id; PInt txns; signer]))).

(** The block under [if args.key:] of the show branch. *)
Definition select_key (key : string) (output : pyval) : result pyval :=
  top ← contains output key;
  if (top : bool) then getitem output key
  else
    header ← getitem output "header";
    nested ← contains header key;
    if (nested : bool) then
      header ← getitem output "header";
      getitem header key
    else
      Raise (CliException
               ("key " ++ dquote ++ key ++ dquote ++ " not found in batch or header")).

Definition missing_handler {A} (format : string) : cmd A :=
  raise (AssertionError ("Missing handler: " ++ format)).

Section Command.

(** The constructor [RestClient(args.url, args.user)]. *)
Variable RestClient : option string -> option string -> RestClientT.

Definition do_batch (args : Args) : cmd unit :=
  let rest_client := RestClient (url args) (user args) in
  _ ← (if String.eqb (subcommand args) "list" then
         batches ← lift (list_batches rest_client);
         let headers := map upper keys in
         if String.eqb (format args) "default" then
           call (print_terminal_table headers batches)
         else if String.eqb (format args) "csv" then
           call (print_csv headers batches)
         else if String.eqb (format args) "json" || String.eqb (format args) "yaml" then
           data ← lift (mapM row_dict batches);
           if String.eqb (format args) "yaml" then call (print_yaml (PList data))
           else if String.eqb (format args) "json" then call (print_json (PList data))
           else missing_handler (format args)
         else missing_handler (format args)
       else mret tt);
  if String.eqb (subcommand args) "show" then
    output ← lift (get_batch rest_client (batch_id args));
    output ← lift (match held (key args) with
                   | Some k => select_key k output
                   | None => Return output
                   end);
    if String.eqb (format args) "yaml" then call (print_yaml output)
    else if String.eqb (format args) "json" then call (print_json output)
    else missing_handler (format args)
  else mret tt.

End Command.

End Batch.

(** ** Sample clients, servers and batch records *)

Module Samples.
Import Py MktComm Batch.

(** Codecs that wrap the body they are given under a tag. *)
Definition json2dict (body : string) : result pyval :=
  Return (PDict {[ "json" := PStr body ]}).
Definition cbor2dict (body : string) : result pyval :=
  Return (PDict {[ "cbor" := PStr body ]}).
Definition dict2cbor (payload : pyval) : string := "payload".

Definition fresh : World := mkWorld (init "http://localhost:8800/") [].
Definition in_session : World :=
  mkWorld (mkClient "http://localhost:8800" (Some "sid=1")) [].

Definition ok_response : Response :=
  mkResponse 200
             {[ "Content-Type" := "application/json"; "Set-Cookie" := "sid=2" ]}
             "{}".
Definition plain_response : Response :=
  mkResponse 200 {[ "Content-Type" := "text/plain" ]} "hello".

(** A server that answers every call alike. *)
Definition answers (response : Response) : Call -> Outcome :=
  fun _ => Responded response.
Definition rejects (status : Z) (body : string) : Call -> Outcome :=
  fun _ => RaisedHTTPError (mkHTTPError status body).
Definition unreachable : Call -> Outcome :=
  fun _ => RaisedURLError "Connection refused".

(** The calls that the operations build against [fresh] and [in_session]. *)
Definition head_status : Call :=
  mkCall (mkRequest HEAD "http://localhost:8800/status" ∅ None) 30.
Definition get_status : Call :=
  mkCall (mkRequest GET "http://localhost:8800/status" GET_HEADER None) 10.
Definition post_headers : gmap string hval :=
  {[ "Content-Type" := HStr "application/cbor"; "Content-Length" := HInt 7 ]}.
Definition post_transaction : Call :=
  mkCall (mkRequest POST "http://localhost:8800/transaction" post_headers
                    (Some "payload")) 10.
Definition post_prevalidation : Call :=
  mkCall (mkRequest POST "http://localhost:8800/prevalidation/transaction"
                    post_headers (Some "payload")) 10.
Definition post_prevalidation_cookie : Call :=
  mkCall (mkRequest POST "http://localhost:8800/prevalidation/transaction"
                    (<["cookie" := HStr "sid=1"]> post_headers) (Some "payload")) 10.

(** The batch record of the list-row example. *)
Definition header1 : gmap string pyval := {[ "signer_pubkey" := PStr "pk1" ]}.
Definition batch1 : gmap string pyval :=
  {[ "header_signature" := PStr "abc";
     "transactions" := PList [PStr "t1"; PStr "t2"];
     "header" := PDict header1 ]}.

(** A record in which ["signer_pubkey"] is a key at both levels. *)
Definition header2 : gmap string pyval := {[ "signer_pubkey" := PStr "nested" ]}.
Definition batch2 : gmap string pyval :=
  {[ "header_signature" := PStr "abc";
     "signer_pubkey" := PStr "top";
     "header" := PDict header2 ]}.

Definition rest (b : gmap string pyval) (u v : option string) : RestClientT :=
  mkRestClient (Return [PDict b]) (fun _ => Return (PDict b)).

Definition list_args (format : string) : Args :=
  mkArgs None None "list" format None EmptyString.
Definition show_args (format : string) (key : option string) : Args :=
  mkArgs None None "show" format key "abc".

(** Records that lack an entry, or have one of the wrong kind. *)
Definition batch_null_transactions : gmap string pyval :=
  {[ "header_signature" := PStr "abc";
     "transactions" := PNone;
     "header" := PDict header1 ]}.
Definition batch_bare : gmap string pyval :=
  {[ "header_signature" := PStr "abc" ]}.

(** A REST client that lists the given batches, and one that is down. *)
Definition rest_list (bs : list pyval) (u v : option string) : RestClientT :=
  mkRestClient (Return bs) (fun _ => Return PNone).
Definition rest_down (u v : option string) : RestClientT :=
  mkRestClient (Raise (CliException "Unable to connect"))
               (fun _ => Raise (CliException "Unable to connect")).

Definition other_args : Args :=
  mkArgs None None "state" "yaml" None EmptyString.

End Samples.

(** * Properties of the communication client *)

Section MktCommProperties.
Import Py MktComm.

Variable net : Call -> Outcome.
Variable json2dict cbor2dict : string -> result pyval.
Variable dict2cbor : pyval -> string.

Lemma sends_inv (l : list Call) (c c' : Call) :
  (l ++ [c'])%list = (l ++ [c])%list -> c' = c.
Proof. intros H. apply app_inv_head in H. congruence. Qed.

Lemma sends_none (l : list Call) (c : Call) : l = (l ++ [c])%list -> False.
Proof.
  intros H. apply (f_equal (@List.length Call)) in H.
  rewrite length_app in H. simpl in H. lia.
Qed.

Lemma bind_Return (r : result pyval) : (value ← r; Return value) = r.
Proof. destruct r; reflexivity. Qed.

(** In a hypothesis [sends w w' c] whose [w'] has been computed, identify
    [c] with the call that was appended. *)
Ltac the_call H :=
  unfold sends in H; simpl in H;
  first [ apply sends_inv in H; subst
        | exfalso; exact (sends_none _ _ H) ].

Ltac on_net :=
  match goal with
  | |- context [net ?c] => destruct (net c) as [?response|?err|?reason|] eqn:?Hnet
  end.

(** [getmsg] and [postmsg] dispatch exactly one call. *)
Lemma getmsg_sends (path : string) (w : World) :
  exists c, sends w (snd (getmsg net json2dict cbor2dict path w)) c
            /\ call_timeout c = 10.
Proof. unfold getmsg, opener_open, sends. simpl. eauto. Qed.

Lemma postmsg_sends (msgtype : string) (payload : pyval) (path : string) (w : World) :
  exists c,
    sends w (snd (postmsg net json2dict cbor2dict dict2cbor msgtype payload path w)) c
    /\ call_timeout c = 10.
Proof.
  unfold postmsg, opener_open, sends.
  destruct (String.eqb path "/prevalidation"); simpl; eauto.
  match goal with |- context [net ?c] => exists c; destruct (net c) end;
    simpl; auto.
  destruct (held (_cookie (self w))); simpl; auto.
Qed.

(** Run an operation up to its call: split on the path test, on the held
    cookie and on the outcome where the new world depends on them, then
    identify the call of hypothesis [H]. *)
Ltac run H :=
  unfold headrequest, getmsg, postmsg, opener_open in *; simpl in *;
  repeat match type of H with
         | context [String.eqb ?p "/prevalidation"] =>
             destruct (String.eqb p "/prevalidation"); simpl in *
         | context [held ?o] => destruct (held o) eqn:?Hheld; simpl in *
         | context [net ?c] =>
             destruct (net c) as [?response|?err|?reason|] eqn:?Hnet; simpl in *
         end;
  the_call H; simpl.

(** *** [headrequest] *)

(** C3. [headrequest("/prevalidation")] while no session cookie is held
    returns the string "Session is not enabled" and dispatches no call: the
    world, with its list of calls, is the one it started from. *)
Theorem headrequest_session_not_enabled (w : World) :
  held (_cookie (self w)) = None ->
  headrequest net "/prevalidation" w = (Return (PStr "Session is not enabled"), w).
Proof.
  intros Hnone. unfold headrequest. simpl. rewrite Hnone. reflexivity.
Qed.

(** C6. Whenever [headrequest] dispatches its call and an HTTP response
    comes back, as a normal response or as an [HTTPError] of any status,
    it returns that status code and raises nothing; it raises, and then a
    [MessageException], exactly when the call ends in a [URLError] or
    without a response. *)
Theorem headrequest_returns_status (path : string) (w : World) :
  (forall c, sends w (snd (headrequest net path w)) c ->
     match net c with
     | Responded response =>
         fst (headrequest net path w) = Return (PInt (code response))
     | RaisedHTTPError err =>
         fst (headrequest net path w) = Return (PInt (err_code err))
     | RaisedURLError reason =>
         fst (headrequest net path w)
         = Raise (MessageException ("operation failed: " ++ reason))
     | RaisedOther =>
         fst (headrequest net path w)
         = Raise (MessageException "no response from server")
     end)
  /\ (forall e, fst (headrequest net path w) = Raise e ->
        exists c, sends w (snd (headrequest net path w)) c
                  /\ (net c = RaisedOther \/ exists reason, net c = RaisedURLError reason)).
Proof.
  split.
  - intros c Hc. run Hc; on_net; reflexivity.
  - intros e He. unfold headrequest, opener_open, sends in *.
    destruct (String.eqb path "/prevalidation");
      [destruct (held (_cookie (self w)))|]; simpl in *;
      try discriminate;
      match type of He with
      | context [net ?c] => exists c; destruct (net c) eqn:Hnet
      end; simpl in *; try discriminate;
      (split; [reflexivity | eauto]).
Qed.

(** *** Decoding *)

(** C5. On a response, [getmsg] and [postmsg] both return what
    [json2dict] gives for content type application/json and what
    [cbor2dict] gives for application/cbor; for any other content type, or
    none, [getmsg] returns the body as it is and [postmsg] returns [None]. *)
Theorem decode_by_content_type
    (path msgtype ppath : string) (payload : pyval) (w : World) :
  (forall c response,
     sends w (snd (getmsg net json2dict cbor2dict path w)) c ->
     net c = Responded response ->
     let encoding := info response !! "Content-Type" in
     let value := fst (getmsg net json2dict cbor2dict path w) in
     (encoding = Some "application/json" -> value = json2dict (content response))
     /\ (encoding = Some "application/cbor" -> value = cbor2dict (content response))
     /\ (encoding <> Some "application/json" ->
         encoding <> Some "application/cbor" ->
         value = Return (PStr (content response))))
  /\ (forall c response,
        sends w (snd (postmsg net json2dict cbor2dict dict2cbor msgtype payload ppath w)) c ->
        net c = Responded response ->
        let encoding := info response !! "Content-Type" in
        let value := fst (postmsg net json2dict cbor2dict dict2cbor msgtype payload ppath w) in
        (encoding = Some "application/json" -> value = json2dict (content response))
        /\ (encoding = Some "application/cbor" -> value = cbor2dict (content response))
        /\ (encoding <> Some "application/json" ->
            encoding <> Some "application/cbor" ->
            value = Return PNone)).
Proof.
  split; intros c response Hc Hresp encoding value; subst encoding value;
    run Hc; rewrite ?Hnet, ?Hresp in *; try discriminate;
    try match goal with H : Responded _ = Responded _ |- _ => injection H as -> end;
    simpl; unfold decode;
    (repeat split;
     [ intros ->; simpl; apply bind_Return
     | intros ->; simpl; apply bind_Return
     | intros Hj Hb; rewrite !bool_decide_eq_false_2 by assumption; reflexivity ]).
Qed.

(** *** The session cookie *)

(** C7. The store is the single attribute [_cookie], which holds [None]
    or one string. After [postmsg] to "/prevalidation" has received a
    response: if a cookie was held, it is still the stored value; if none
    was held, the stored value is what the response gives for 'Set-Cookie'. *)
Theorem capture_first_write_wins
    (msgtype : string) (payload : pyval) (w : World) (c : Call) (response : Response) :
  let w' := snd (postmsg net json2dict cbor2dict dict2cbor msgtype payload "/prevalidation" w) in
  sends w w' c ->
  net c = Responded response ->
  _cookie (self w') = match held (_cookie (self w)) with
                      | Some _ => _cookie (self w)
                      | None => info response !! "Set-Cookie"
                      end.
Proof.
  intros w' Hc Hresp. subst w'.
  run Hc; rewrite ?Hheld; rewrite Hnet in *; try discriminate;
    injection Hresp as <-; simpl; rewrite ?Hheld; reflexivity.
Qed.

(** Whatever the call's outcome, a held cookie survives [postmsg]. *)
Lemma postmsg_keeps_held_cookie
    (msgtype : string) (payload : pyval) (path : string) (w : World) (v : string) :
  held (_cookie (self w)) = Some v ->
  _cookie (self (snd (postmsg net json2dict cbor2dict dict2cbor msgtype payload path w)))
  = _cookie (self w).
Proof.
  intros Hv. unfold postmsg, opener_open. simpl.
  destruct (String.eqb path "/prevalidation"); simpl; rewrite ?Hv;
    try on_net; simpl; rewrite ?Hv; reflexivity.
Qed.

(** C2, as the code has it. With a cookie held, each of the three
    operations on "/prevalidation" dispatches one call whose 'cookie' header
    is the held value. [headrequest] then leaves the store empty; [getmsg]
    and [postmsg] leave the held value in the store. *)
Theorem cookie_attached_cleared_by_head_only
    (msgtype : string) (payload : pyval) (w : World) (v : string) :
  held (_cookie (self w)) = Some v ->
  let wh := snd (headrequest net "/prevalidation" w) in
  let wg := snd (getmsg net json2dict cbor2dict "/prevalidation" w) in
  let wp := snd (postmsg net json2dict cbor2dict dict2cbor msgtype payload "/prevalidation" w) in
  (exists c, sends w wh c
             /\ headers (call_request c) !! "cookie" = Some (HStr v)
             /\ _cookie (self wh) = None)
  /\ (exists c, sends w wg c
                /\ headers (call_request c) !! "cookie" = Some (HStr v)
                /\ _cookie (self wg) = _cookie (self w))
  /\ (exists c, sends w wp c
                /\ headers (call_request c) !! "cookie" = Some (HStr v)
                /\ _cookie (self wp) = _cookie (self w)).
Proof.
  intros Hv wh wg wp. subst wh wg wp.
  unfold headrequest, getmsg, postmsg, opener_open, sends. simpl. rewrite Hv.
  simpl. split; [|split].
  - eexists. split; [reflexivity|]. split; [apply lookup_insert_eq | reflexivity].
  - eexists. split; [reflexivity|]. split; [apply lookup_insert_eq | reflexivity].
  - match goal with |- context [net ?c] => exists c end.
    on_net; simpl; rewrite ?Hv, lookup_insert_eq; auto.
Qed.

(** *** Timeouts *)

(** C4, as the code has it. The call of [headrequest] carries a timeout of
    30 seconds, the calls of [getmsg] and [postmsg] one of 10 seconds: the
    timeout of a HEAD request is strictly longer than that of a GET or POST. *)
Theorem head_timeout_longer
    (hpath gpath msgtype ppath : string) (payload : pyval) (wh wg wp : World)
    (ch cg cp : Call) :
  sends wh (snd (headrequest net hpath wh)) ch ->
  sends wg (snd (getmsg net json2dict cbor2dict gpath wg)) cg ->
  sends wp (snd (postmsg net json2dict cbor2dict dict2cbor msgtype payload ppath wp)) cp ->
  call_timeout ch = 30 /\ call_timeout cg = 10 /\ call_timeout cp = 10
  /\ call_timeout cg < call_timeout ch /\ call_timeout cp < call_timeout ch.
Proof.
  intros Hh Hg Hp.
  assert (call_timeout ch = 30) as -> by (clear Hg Hp; run Hh; reflexivity).
  assert (call_timeout cg = 10) as -> by (clear Hh Hp; run Hg; reflexivity).
  assert (call_timeout cp = 10) as -> by (clear Hh Hg; run Hp; reflexivity).
  lia.
Qed.

(** *** Errors of [postmsg] *)

Lemma find_from_range (sub s : string) (i : Z) :
  find_from i sub s = -1 \/ i <= find_from i sub s.
Proof.
  revert i. induction s as [|a s IH]; intros i; cbn [find_from];
    destruct (String.prefix sub _); try lia.
  specialize (IH (i + 1)). lia.
Qed.

(** X13. The condition [if err_content.find(marker):] fails exactly when
    the body starts with the marker, and holds when the marker is absent. *)
Lemma marker_test (body marker : string) :
  truthy_int (find body marker) = negb (String.prefix marker body).
Proof.
  unfold find, truthy_int. destruct body as [|a body]; cbn [find_from];
    destruct (String.prefix marker _); try reflexivity.
  destruct (find_from_range marker body (0 + 1)) as [-> | H]; [reflexivity|].
  destruct (Z.eqb_spec (find_from (0 + 1) marker body) 0); [lia | reflexivity].
Qed.

(** X12. On any HTTP 400, the second [err.read()] finds the body already
    read, and the marker test holds on the empty string: [postmsg] raises
    [InvalidTransactionError] with an empty body text, whatever the body. *)
Lemma postmsg_400_any_body
    (msgtype : string) (payload : pyval) (path : string) (w : World)
    (c : Call) (err : HTTPError) :
  sends w (snd (postmsg net json2dict cbor2dict dict2cbor msgtype payload path w)) c ->
  net c = RaisedHTTPError err ->
  err_code err = 400 ->
  fst (postmsg net json2dict cbor2dict dict2cbor msgtype payload path w)
  = Raise (InvalidTransactionError "Error from server: ").
Proof.
  intros Hc Herr H400. destruct err as [status body]. simpl in H400. subst status.
  run Hc; rewrite ?Hnet in *; try discriminate;
    try match goal with H : RaisedHTTPError _ = RaisedHTTPError _ |- _ =>
          injection H as ->
        end;
    try rewrite Herr; reflexivity.
Qed.

(** C1, at a body without the marker. A POST answered by HTTP 400 with
    body "Bad Request", in which "InvalidTransactionError" does not occur,
    raises [InvalidTransactionError], and not the [MessageException] for
    status 400. *)
Theorem postmsg_400_without_marker
    (msgtype : string) (payload : pyval) (path : string) (w : World) :
  str_contains "InvalidTransactionError" "Bad Request" = false
  /\ fst (postmsg (Samples.rejects 400 "Bad Request") json2dict cbor2dict dict2cbor
                  msgtype payload path w)
     = Raise (InvalidTransactionError "Error from server: ").
Proof.
  split; [reflexivity|].
  unfold postmsg, opener_open, Samples.rejects.
  destruct (String.eqb path "/prevalidation"); reflexivity.
Qed.

(** *** URLs *)

Lemma rstrip_app (c : ascii) (s : string) :
  rstrip c (s ++ String c EmptyString) = rstrip c s.
Proof.
  induction s as [|a s IH]; simpl.
  - rewrite Ascii.eqb_refl. reflexivity.
  - rewrite IH. reflexivity.
Qed.

Lemma append_nonempty (t : string) (c : ascii) :
  t ++ String c EmptyString <> EmptyString.
Proof. destruct t; discriminate. Qed.

Lemma rstrip_no_trailing (c : ascii) (s t : string) :
  rstrip c s <> t ++ String c EmptyString.
Proof.
  revert t. induction s as [|a s IH]; intros t; simpl.
  - intros H. symmetry in H. exact (append_nonempty _ _ H).
  - destruct (rstrip c s) as [|b r] eqn:Hr.
    + destruct (Ascii.eqb_spec a c) as [->|Hne].
      * intros H. symmetry in H. exact (append_nonempty _ _ H).
      * destruct t as [|x t]; simpl; intros H.
        -- injection H as Ha. congruence.
        -- injection H as Ha Ht. exact (append_nonempty _ _ (eq_sym Ht)).
    + destruct t as [|x t]; simpl; intros H.
      * injection H as Ha Ht. discriminate.
      * injection H as Ha Ht. exact (IH t Ht).
Qed.

Lemma strip_outer (c : ascii) (s : string) :
  strip c (String c (s ++ String c EmptyString)) = strip c s.
Proof.
  unfold strip. simpl. rewrite Ascii.eqb_refl.
  induction s as [|a s IH]; simpl.
  - rewrite Ascii.eqb_refl. reflexivity.
  - destruct (Ascii.eqb a c); [exact IH|].
    exact (rstrip_app c (String a s)).
Qed.

(** X1. [__init__] drops every trailing slash of the base URL: the stored
    [BaseURL] never ends in a slash, and one more slash at the end of the
    argument gives the same client. *)
Theorem init_drops_trailing_slashes (baseurl : string) :
  (forall t, BaseURL (init baseurl) <> t ++ "/")
  /\ init (baseurl ++ "/") = init baseurl.
Proof.
  unfold init. simpl. split.
  - intros t. apply rstrip_no_trailing.
  - rewrite rstrip_app. reflexivity.
Qed.

#[local] Arguments strip : simpl never.

(** X2. [headrequest] and [getmsg] request [BaseURL], a slash, and the path
    without its leading and trailing slashes: a slash more at both ends of
    the path gives the same URL. *)
Theorem url_ignores_outer_slashes (path : string) (w : World) (c1 c2 : Call) :
  (sends w (snd (getmsg net json2dict cbor2dict path w)) c1 ->
   sends w (snd (getmsg net json2dict cbor2dict ("/" ++ path ++ "/") w)) c2 ->
   get_full_url (call_request c1) = BaseURL (self w) ++ "/" ++ strip "/" path
   /\ get_full_url (call_request c2) = get_full_url (call_request c1))
  /\ (sends w (snd (headrequest net path w)) c1 ->
      sends w (snd (headrequest net ("/" ++ path ++ "/") w)) c2 ->
      get_full_url (call_request c1) = BaseURL (self w) ++ "/" ++ strip "/" path
      /\ get_full_url (call_request c2) = get_full_url (call_request c1)).
Proof.
  set (path' := "/" ++ path ++ "/").
  assert (strip "/" path' = strip "/" path) as Hstrip by apply strip_outer.
  clearbody path'.
  split; intros H1 H2.
  - unfold getmsg, opener_open, sends in *. simpl in H1, H2.
    apply sends_inv in H1. apply sends_inv in H2. subst c1 c2.
    repeat match goal with
           | |- context [String.eqb ?p "/prevalidation"] =>
               destruct (String.eqb p "/prevalidation")
           end;
      destruct (held (_cookie (self w))); simpl; rewrite Hstrip; auto.
  - unfold headrequest, opener_open, sends in *.
    destruct (String.eqb path "/prevalidation");
      destruct (String.eqb path' "/prevalidation");
      destruct (held (_cookie (self w))); simpl in H1, H2;
      try (exfalso; exact (sends_none _ _ H1));
      try (exfalso; exact (sends_none _ _ H2));
      apply sends_inv in H1; apply sends_inv in H2; subst c1 c2;
      simpl; rewrite Hstrip; auto.
Qed.

(** *** The requests that are built *)

(** X3. [postmsg] sends one POST to [BaseURL + path + msgtype], joined as
    they are, with the encoded payload as body; 'Content-Type' is
    application/cbor and 'Content-Length' is the length of that body, with
    or without a cookie attached. *)
Theorem postmsg_request
    (msgtype : string) (payload : pyval) (path : string) (w : World) (c : Call) :
  sends w (snd (postmsg net json2dict cbor2dict dict2cbor msgtype payload path w)) c ->
  let request := call_request c in
  get_method request = POST
  /\ get_full_url request = BaseURL (self w) ++ path ++ msgtype
  /\ get_data request = Some (dict2cbor payload)
  /\ headers request !! "Content-Type" = Some (HStr "application/cbor")
  /\ headers request !! "Content-Length"
     = Some (HInt (Z.of_nat (String.length (dict2cbor payload)))).
Proof.
  intros Hc request. subst request.
  run Hc; repeat split; reflexivity.
Qed.

(** X4. [getmsg] sends one GET without a body that accepts
    application/cbor. Its 'cookie' header is the held cookie when the path
    is "/prevalidation", and absent on every other path. *)
Theorem getmsg_request (path : string) (w : World) (c : Call) :
  sends w (snd (getmsg net json2dict cbor2dict path w)) c ->
  let request := call_request c in
  get_method request = GET
  /\ get_data request = None
  /\ headers request !! "Accept" = Some (HStr "application/cbor")
  /\ headers request !! "cookie"
     = if String.eqb path "/prevalidation"
       then HStr <$> held (_cookie (self w))
       else None.
Proof.
  intros Hc request. subst request.
  unfold getmsg, opener_open, sends in Hc. simpl in Hc.
  apply sends_inv in Hc. subst c. simpl.
  destruct (String.eqb path "/prevalidation");
    [destruct (held (_cookie (self w)))|]; repeat split; reflexivity.
Qed.

(** X5. On a path other than "/prevalidation", taken literally, no
    operation touches the session: the client is unchanged, whatever the
    response carries, the call has no 'cookie' header even while a cookie is
    held, and [headrequest] always dispatches its call. *)
Theorem other_paths_leave_session_alone
    (path msgtype : string) (payload : pyval) (w : World) :
  path <> "/prevalidation" ->
  let wh := snd (headrequest net path w) in
  let wg := snd (getmsg net json2dict cbor2dict path w) in
  let wp := snd (postmsg net json2dict cbor2dict dict2cbor msgtype payload path w) in
  self wh = self w /\ self wg = self w /\ self wp = self w
  /\ (exists c, sends w wh c)
  /\ (forall c, sends w wh c \/ sends w wg c \/ sends w wp c ->
        headers (call_request c) !! "cookie" = None).
Proof.
  intros Hpath wh wg wp. subst wh wg wp.
  apply String.eqb_neq in Hpath.
  unfold headrequest, getmsg, postmsg, opener_open, sends.
  rewrite Hpath. simpl.
  repeat split; eauto.
  intros c [H | [H | H]]; apply sends_inv in H; subst c; reflexivity.
Qed.

(** X6. Every operation keeps [BaseURL] and the calls made before it, and
    dispatches at most one call; [getmsg] leaves the whole client as it is. *)
Theorem operations_frame
    (path msgtype : string) (payload : pyval) (w : World) :
  let frame (w' : World) :=
    BaseURL (self w') = BaseURL (self w)
    /\ exists l, calls w' = (calls w ++ l)%list /\ (List.length l <= 1)%nat in
  frame (snd (headrequest net path w))
  /\ frame (snd (getmsg net json2dict cbor2dict path w))
  /\ frame (snd (postmsg net json2dict cbor2dict dict2cbor msgtype payload path w))
  /\ self (snd (getmsg net json2dict cbor2dict path w)) = self w.
Proof.
  intros frame. subst frame. simpl.
  unfold headrequest, getmsg, postmsg, opener_open.
  split; [|split; [|split]].
  - destruct (String.eqb path "/prevalidation");
      [destruct (held (_cookie (self w)))|]; simpl;
      (split; [reflexivity|]);
      first [ eexists; split; [reflexivity | simpl; lia]
            | exists []; split; [symmetry; apply app_nil_r | simpl; lia] ].
  - simpl. split; [reflexivity|]. eexists. split; [reflexivity | simpl; lia].
  - destruct (String.eqb path "/prevalidation"); simpl;
      [destruct (held (_cookie (self w))) eqn:Hheld; on_net; simpl;
       rewrite ?Hheld; simpl|];
      (split; [reflexivity|]); eexists; (split; [reflexivity | simpl; lia]).
  - reflexivity.
Qed.

(** *** Failures of [getmsg] and [postmsg] *)

Lemma print_error_keeps_code (err : HTTPError) :
  err_code (_print_error_information_from_server err) = err_code err.
Proof.
  unfold _print_error_information_from_server.
  destruct (err_code err =? 400); reflexivity.
Qed.

(** X7. A failed [getmsg] raises [MessageException] and nothing else: with
    the status code for an [HTTPError] of any status, 400 included whatever
    its body, with the reason for a [URLError], and with "no response from
    server" otherwise. *)
Theorem getmsg_failures (path : string) (w : World) (c : Call) :
  sends w (snd (getmsg net json2dict cbor2dict path w)) c ->
  match net c with
  | Responded _ => True
  | RaisedHTTPError err =>
      fst (getmsg net json2dict cbor2dict path w)
      = Raise (MessageException
                 ("operation failed with response: " ++ str_of_int (err_code err)))
  | RaisedURLError reason =>
      fst (getmsg net json2dict cbor2dict path w)
      = Raise (MessageException ("operation failed: " ++ reason))
  | RaisedOther =>
      fst (getmsg net json2dict cbor2dict path w)
      = Raise (MessageException "no response from server")
  end.
Proof.
  intros Hc. unfold getmsg, opener_open, sends in *. simpl in *.
  apply sends_inv in Hc. subst c.
  on_net; simpl; rewrite ?print_error_keeps_code; auto.
Qed.

(** X8. A failed [postmsg] raises [MessageException] with the status code
    for an [HTTPError] of a status other than 400, with the reason for a
    [URLError], and with "no response from server" otherwise. *)
Theorem postmsg_failures
    (msgtype : string) (payload : pyval) (path : string) (w : World) (c : Call) :
  sends w (snd (postmsg net json2dict cbor2dict dict2cbor msgtype payload path w)) c ->
  match net c with
  | Responded _ => True
  | RaisedHTTPError err =>
      err_code err <> 400 ->
      fst (postmsg net json2dict cbor2dict dict2cbor msgtype payload path w)
      = Raise (MessageException
                 ("operation failed with response: " ++ str_of_int (err_code err)))
  | RaisedURLError reason =>
      fst (postmsg net json2dict cbor2dict dict2cbor msgtype payload path w)
      = Raise (MessageException ("operation failed: " ++ reason))
  | RaisedOther =>
      fst (postmsg net json2dict cbor2dict dict2cbor msgtype payload path w)
      = Raise (MessageException "no response from server")
  end.
Proof.
  intros Hc. run Hc; first [rewrite Hnet | on_net]; simpl; auto;
    intros Hcode; apply Z.eqb_neq in Hcode;
    unfold _print_error_information_from_server; rewrite !Hcode; reflexivity.
Qed.

(** X9. When the call of [postmsg] does not end in a response, the client
    is left as it was: nothing is captured, on any path. *)
Theorem postmsg_failure_keeps_client
    (msgtype : string) (payload : pyval) (path : string) (w : World) (c : Call) :
  sends w (snd (postmsg net json2dict cbor2dict dict2cbor msgtype payload path w)) c ->
  (forall response, net c <> Responded response) ->
  self (snd (postmsg net json2dict cbor2dict dict2cbor msgtype payload path w)) = self w.
Proof.
  intros Hc Hfail. run Hc; try reflexivity;
    exfalso; eapply Hfail; eassumption.
Qed.

(** *** The session over several operations *)

(** X10. After [headrequest("/prevalidation")], whatever it did, the next
    [headrequest("/prevalidation")] finds no session: it returns "Session is
    not enabled" and dispatches nothing. *)
Theorem headrequest_twice (w : World) :
  let w1 := snd (headrequest net "/prevalidation" w) in
  headrequest net "/prevalidation" w1
  = (Return (PStr "Session is not enabled"), w1).
Proof.
  intros w1. subst w1. unfold headrequest, opener_open. simpl.
  destruct (held (_cookie (self w))) eqn:Hheld; simpl; rewrite ?Hheld;
    reflexivity.
Qed.

(** X11. A session from start to end. With no cookie held, a [postmsg] to
    "/prevalidation" that is answered with a non-empty 'Set-Cookie' value
    opens the session: the following [getmsg] and [headrequest] on that path
    both carry this value, and the [headrequest] ends the session. *)
Theorem session_round_trip
    (msgtype : string) (payload : pyval) (w : World) (c : Call)
    (response : Response) (v : string) :
  let w1 := snd (postmsg net json2dict cbor2dict dict2cbor msgtype payload
                         "/prevalidation" w) in
  let w2 := snd (getmsg net json2dict cbor2dict "/prevalidation" w1) in
  let w3 := snd (headrequest net "/prevalidation" w2) in
  held (_cookie (self w)) = None ->
  sends w w1 c ->
  net c = Responded response ->
  info response !! "Set-Cookie" = Some v ->
  v <> EmptyString ->
  headers (call_request c) !! "cookie" = None
  /\ (exists cg ch,
        calls w3 = (calls w ++ [c; cg; ch])%list
        /\ headers (call_request cg) !! "cookie" = Some (HStr v)
        /\ headers (call_request ch) !! "cookie" = Some (HStr v))
  /\ _cookie (self w3) = None.
Proof.
  intros w1 w2 w3 Hnone Hc Hresp Hv Hne. subst w1 w2 w3.
  apply String.eqb_neq in Hne.
  run Hc; rewrite Hnet in *; try discriminate; try congruence.
  injection Hresp as <-.
  rewrite Hv. simpl. rewrite Hne. simpl.
  split; [reflexivity|]. split; [|reflexivity].
  eexists. eexists. split.
  - rewrite <- !app_assoc. reflexivity.
  - split; reflexivity.
Qed.

End MktCommProperties.

(** *** Instances on the sample servers *)

Section MktCommInstances.
Import Py MktComm Samples.

Lemma headrequest_session_not_enabled_witness :
  held (_cookie (self fresh)) = None
  /\ headrequest (answers ok_response) "/prevalidation" fresh
     = (Return (PStr "Session is not enabled"), fresh).
Proof.
  split; [reflexivity|].
  apply (headrequest_session_not_enabled (answers ok_response) fresh).
  reflexivity.
Defined.

Lemma headrequest_returns_status_witness :
  sends fresh (snd (headrequest (rejects 404 "Not Found") "/status" fresh)) head_status
  /\ fst (headrequest (rejects 404 "Not Found") "/status" fresh) = Return (PInt 404).
Proof.
  split; [reflexivity|].
  exact (proj1 (headrequest_returns_status (rejects 404 "Not Found") "/status" fresh)
               head_status eq_refl).
Defined.

Lemma decode_by_content_type_witness :
  sends fresh (snd (getmsg (answers ok_response) json2dict cbor2dict "/status" fresh))
        get_status
  /\ info ok_response !! "Content-Type" = Some "application/json"
  /\ fst (getmsg (answers ok_response) json2dict cbor2dict "/status" fresh)
     = json2dict "{}".
Proof.
  split; [reflexivity|]. split; [reflexivity|].
  exact (proj1 (proj1 (decode_by_content_type (answers ok_response) json2dict cbor2dict
                         dict2cbor "/status" "/transaction" EmptyString PNone fresh)
                      get_status ok_response eq_refl eq_refl)
               eq_refl).
Defined.

Lemma capture_first_write_wins_witness :
  sends fresh
        (snd (postmsg (answers ok_response) json2dict cbor2dict dict2cbor
                      "/transaction" PNone "/prevalidation" fresh))
        post_prevalidation
  /\ _cookie (self (snd (postmsg (answers ok_response) json2dict cbor2dict dict2cbor
                                  "/transaction" PNone "/prevalidation" fresh)))
     = Some "sid=2".
Proof.
  split; [reflexivity|].
  exact (capture_first_write_wins (answers ok_response) json2dict cbor2dict dict2cbor
           "/transaction" PNone fresh post_prevalidation ok_response eq_refl eq_refl).
Defined.

(** C2, the claim as written fails: after [getmsg] and after [postmsg] on
    "/prevalidation" with the cookie "sid=1" held, the store still holds
    "sid=1", and the next [postmsg] attaches it again. *)
Lemma getmsg_postmsg_keep_cookie :
  held (_cookie (self in_session)) = Some "sid=1"
  /\ _cookie (self (snd (getmsg (answers ok_response) json2dict cbor2dict
                                 "/prevalidation" in_session)))
     = Some "sid=1"
  /\ _cookie (self (snd (postmsg (answers ok_response) json2dict cbor2dict dict2cbor
                                  "/transaction" PNone "/prevalidation" in_session)))
     = Some "sid=1"
  /\ (headers ∘ call_request)
       <$> calls (snd (postmsg (answers ok_response) json2dict cbor2dict dict2cbor
                               "/transaction" PNone "/prevalidation"
                               (snd (postmsg (answers ok_response) json2dict cbor2dict
                                             dict2cbor "/transaction" PNone
                                             "/prevalidation" in_session))))
     = [ <["cookie" := HStr "sid=1"]> post_headers;
         <["cookie" := HStr "sid=1"]> post_headers ].
Proof. repeat split. Qed.

Lemma cookie_attached_cleared_by_head_only_witness :
  held (_cookie (self in_session)) = Some "sid=1"
  /\ _cookie (self (snd (headrequest (answers ok_response) "/prevalidation" in_session)))
     = None.
Proof.
  split; [reflexivity|].
  destruct (proj1 (cookie_attached_cleared_by_head_only (answers ok_response) json2dict
                     cbor2dict dict2cbor "/transaction" PNone in_session "sid=1" eq_refl))
    as [c [_ [_ Hcleared]]].
  exact Hcleared.
Defined.

(** C4, the claim as written fails: [headrequest] dispatches its call with
    a timeout of 30, [getmsg] and [postmsg] with 10, and 30 is not below 10. *)
Lemma head_timeout_not_shorter :
  sends fresh (snd (headrequest (answers ok_response) "/status" fresh)) head_status
  /\ sends fresh (snd (getmsg (answers ok_response) json2dict cbor2dict "/status" fresh))
           get_status
  /\ sends fresh
           (snd (postmsg (answers ok_response) json2dict cbor2dict dict2cbor
                         "/transaction" PNone EmptyString fresh))
           post_transaction
  /\ call_timeout head_status = 30
  /\ call_timeout get_status = 10
  /\ call_timeout post_transaction = 10
  /\ ~ (call_timeout head_status < call_timeout get_status)
  /\ ~ (call_timeout head_status < call_timeout post_transaction).
Proof. repeat split; simpl; lia. Qed.

Lemma head_timeout_longer_witness :
  call_timeout get_status < call_timeout head_status
  /\ call_timeout post_transaction < call_timeout head_status.
Proof.
  exact (proj2 (proj2 (proj2
    (head_timeout_longer (answers ok_response) json2dict cbor2dict dict2cbor
       "/status" "/status" "/transaction" EmptyString PNone fresh fresh fresh
       head_status get_status post_transaction eq_refl eq_refl eq_refl)))).
Defined.

(** A body of unknown content type comes back as it is from [getmsg] and
    as [None] from [postmsg]; an unreachable server gives a
    [MessageException] with the reason. *)
Example plain_text_get_and_post :
  fst (getmsg (answers plain_response) json2dict cbor2dict "/status" fresh)
  = Return (PStr "hello")
  /\ fst (postmsg (answers plain_response) json2dict cbor2dict dict2cbor
                  "/transaction" PNone EmptyString fresh)
     = Return PNone.
Proof. split; reflexivity. Qed.

Example unreachable_get :
  getmsg unreachable json2dict cbor2dict "/status" fresh
  = (Raise (MessageException "operation failed: Connection refused"),
     mkWorld (self fresh) [get_status]).
Proof. reflexivity. Qed.

(** Three POSTs to "/prevalidation" from a fresh client: the first goes
    without a cookie and stores the one it is given, the second and the
    third both carry it. *)
Example three_posts :
  let post := postmsg (answers ok_response) json2dict cbor2dict dict2cbor
                      "/transaction" PNone "/prevalidation" in
  let w3 := snd (post (snd (post (snd (post fresh))))) in
  (fun c => headers (call_request c) !! "cookie") <$> calls w3
  = [None; Some (HStr "sid=2"); Some (HStr "sid=2")]
  /\ _cookie (self w3) = Some "sid=2".
Proof. split; reflexivity. Qed.

Lemma url_ignores_outer_slashes_witness :
  sends fresh (snd (getmsg (answers ok_response) json2dict cbor2dict "status" fresh))
        get_status
  /\ sends fresh
           (snd (getmsg (answers ok_response) json2dict cbor2dict "/status/" fresh))
           get_status
  /\ get_full_url (call_request get_status) = "http://localhost:8800/status".
Proof.
  split; [reflexivity|]. split; [reflexivity|].
  exact (proj1 (proj1 (url_ignores_outer_slashes (answers ok_response) json2dict
                         cbor2dict "status" fresh get_status get_status)
                      eq_refl eq_refl)).
Defined.

Lemma postmsg_request_witness :
  sends in_session
        (snd (postmsg (answers ok_response) json2dict cbor2dict dict2cbor
                      "/transaction" PNone "/prevalidation" in_session))
        post_prevalidation_cookie
  /\ headers (call_request post_prevalidation_cookie) !! "Content-Length"
     = Some (HInt 7).
Proof.
  split; [reflexivity|].
  exact (proj2 (proj2 (proj2 (proj2
    (postmsg_request (answers ok_response) json2dict cbor2dict dict2cbor
       "/transaction" PNone "/prevalidation" in_session
       post_prevalidation_cookie eq_refl))))).
Defined.

Lemma getmsg_request_witness :
  sends in_session
        (snd (getmsg (answers ok_response) json2dict cbor2dict "/status" in_session))
        get_status
  /\ headers (call_request get_status) !! "Accept" = Some (HStr "application/cbor")
  /\ headers (call_request get_status) !! "cookie" = None.
Proof.
  split; [reflexivity|].
  pose proof (getmsg_request (answers ok_response) json2dict cbor2dict
                "/status" in_session get_status eq_refl) as H.
  exact (proj2 (proj2 H)).
Defined.

Lemma other_paths_leave_session_alone_witness :
  "/status" <> "/prevalidation"
  /\ self (snd (postmsg (answers ok_response) json2dict cbor2dict dict2cbor
                        "/transaction" PNone "/status" in_session))
     = self in_session.
Proof.
  assert ("/status" <> "/prevalidation") as Hne by discriminate.
  split; [exact Hne|].
  exact (proj1 (proj2 (proj2
    (other_paths_leave_session_alone (answers ok_response) json2dict cbor2dict
       dict2cbor "/status" "/transaction" PNone in_session Hne)))).
Defined.

Lemma getmsg_failures_witness :
  sends fresh
        (snd (getmsg (rejects 400 "InvalidTransactionError: bad signature")
                     json2dict cbor2dict "/status" fresh))
        get_status
  /\ fst (getmsg (rejects 400 "InvalidTransactionError: bad signature")
                 json2dict cbor2dict "/status" fresh)
     = Raise (MessageException "operation failed with response: 400").
Proof.
  split; [reflexivity|].
  exact (getmsg_failures (rejects 400 "InvalidTransactionError: bad signature")
           json2dict cbor2dict "/status" fresh get_status eq_refl).
Defined.

Lemma postmsg_failures_witness :
  sends fresh
        (snd (postmsg (rejects 500 "Internal Server Error") json2dict cbor2dict
                      dict2cbor "/transaction" PNone EmptyString fresh))
        post_transaction
  /\ 500 <> 400
  /\ fst (postmsg (rejects 500 "Internal Server Error") json2dict cbor2dict
                  dict2cbor "/transaction" PNone EmptyString fresh)
     = Raise (MessageException "operation failed with response: 500").
Proof.
  assert (500 <> 400) as Hne by discriminate.
  split; [reflexivity|]. split; [exact Hne|].
  exact (postmsg_failures (rejects 500 "Internal Server Error") json2dict
           cbor2dict dict2cbor "/transaction" PNone EmptyString fresh
           post_transaction eq_refl Hne).
Defined.

Lemma postmsg_failure_keeps_client_witness :
  sends fresh
        (snd (postmsg unreachable json2dict cbor2dict dict2cbor
                      "/transaction" PNone "/prevalidation" fresh))
        post_prevalidation
  /\ self (snd (postmsg unreachable json2dict cbor2dict dict2cbor
                        "/transaction" PNone "/prevalidation" fresh))
     = self fresh.
Proof.
  split; [reflexivity|].
  apply (postmsg_failure_keeps_client unreachable json2dict cbor2dict dict2cbor
           "/transaction" PNone "/prevalidation" fresh post_prevalidation eq_refl).
  intros response. discriminate.
Defined.

Lemma session_round_trip_witness :
  held (_cookie (self fresh)) = None
  /\ answers ok_response post_prevalidation = Responded ok_response
  /\ info ok_response !! "Set-Cookie" = Some "sid=2"
  /\ _cookie
       (self (snd (headrequest (answers ok_response) "/prevalidation"
                (snd (getmsg (answers ok_response) json2dict cbor2dict "/prevalidation"
                   (snd (postmsg (answers ok_response) json2dict cbor2dict dict2cbor
                                 "/transaction" PNone "/prevalidation" fresh)))))))
     = None.
Proof.
  split; [reflexivity|]. split; [reflexivity|]. split; [reflexivity|].
  assert ("sid=2" <> EmptyString) as Hne by discriminate.
  exact (proj2 (proj2
    (session_round_trip (answers ok_response) json2dict cbor2dict dict2cbor
       "/transaction" PNone fresh post_prevalidation ok_response "sid=2"
       eq_refl eq_refl eq_refl eq_refl Hne))).
Defined.

Lemma postmsg_400_any_body_witness :
  sends fresh
        (snd (postmsg (rejects 400 "InvalidTransactionError: bad signature")
                      json2dict cbor2dict dict2cbor "/transaction" PNone
                      EmptyString fresh))
        post_transaction
  /\ fst (postmsg (rejects 400 "InvalidTransactionError: bad signature")
                  json2dict cbor2dict dict2cbor "/transaction" PNone
                  EmptyString fresh)
     = Raise (InvalidTransactionError "Error from server: ").
Proof.
  split; [reflexivity|].
  exact (postmsg_400_any_body (rejects 400 "InvalidTransactionError: bad signature")
           json2dict cbor2dict dict2cbor "/transaction" PNone EmptyString fresh
           post_transaction
           (mkHTTPError 400 "InvalidTransactionError: bad signature")
           eq_refl eq_refl eq_refl).
Defined.

End MktCommInstances.

(** * Properties of the batch command *)

Section BatchProperties.
Import Py Batch.

Variable RestClient : option string -> option string -> RestClientT.

(** C8. For a batch record whose ['header_signature'] is [sig], whose
    ['transactions'] is a list [txns] and whose ['header'] is a mapping with
    ['signer_pubkey'] equal to [pk], [parse_batch_row] gives the triple of
    [sig], the length of [txns] and [pk]; so ("abc", 2, "pk1") for the
    record with signature "abc", two transactions and signer "pk1". *)
Theorem parse_batch_row_projects
    (batch header : gmap string pyval) (sig pk : pyval) (txns : list pyval) :
  batch !! "header_signature" = Some sig ->
  batch !! "transactions" = Some (PList txns) ->
  batch !! "header" = Some (PDict header) ->
  header !! "signer_pubkey" = Some pk ->
  parse_batch_row (PDict batch) = Return (sig, Z.of_nat (List.length txns), pk).
Proof.
  intros Hsig Htxns Hheader Hpk.
  unfold parse_batch_row, getitem, get, len.
  rewrite Hsig, Htxns, Hheader. simpl. rewrite Hpk. reflexivity.
Qed.

(** X14. A record without ['transactions'] counts as having none. *)
Lemma parse_batch_row_no_transactions
    (batch header : gmap string pyval) (sig pk : pyval) :
  batch !! "header_signature" = Some sig ->
  batch !! "transactions" = None ->
  batch !! "header" = Some (PDict header) ->
  header !! "signer_pubkey" = Some pk ->
  parse_batch_row (PDict batch) = Return (sig, 0, pk).
Proof.
  intros Hsig Htxns Hheader Hpk.
  unfold parse_batch_row, getitem, get, len.
  rewrite Hsig, Htxns, Hheader. simpl. rewrite Hpk. reflexivity.
Qed.

Lemma eqb_other (a b : string) : a <> b -> String.eqb a b = false.
Proof. apply String.eqb_neq. Qed.

(** Unfold the sequencing of commands down to results and printer calls. *)
Ltac run_cmd :=
  unfold mbind, mret, cmd_bind, cmd_ret, lift, call, missing_handler, raise;
  simpl.

(** C9. With an output format outside the enumerated ones, [do_batch]
    never returns and prints nothing: in the list command as in the show
    command it ends in an exception. Once the REST client has given the
    batches (list), or the batch and the requested key has been found in it
    (show), that exception is the [AssertionError] "Missing handler". *)
Theorem do_batch_missing_handler (args : Args) :
  let rest_client := RestClient (url args) (user args) in
  let fault :=
    mkCmd (A := unit) (Raise (AssertionError ("Missing handler: " ++ format args))) [] in
  (subcommand args = "list" ->
   ~ In (format args) ["default"; "csv"; "json"; "yaml"] ->
   (exists e, do_batch RestClient args = mkCmd (Raise e) [])
   /\ (forall batches,
         list_batches rest_client = Return batches ->
         do_batch RestClient args = fault))
  /\ (subcommand args = "show" ->
      ~ In (format args) ["yaml"; "json"] ->
      (exists e, do_batch RestClient args = mkCmd (Raise e) [])
      /\ (forall output selected,
            get_batch rest_client (batch_id args) = Return output ->
            match held (key args) with
            | Some k => select_key k output
            | None => Return output
            end = Return selected ->
            do_batch RestClient args = fault)).
Proof.
  intros rest_client fault. subst rest_client fault. split.
  - intros Hsub Hfmt. simpl in Hfmt.
    assert (String.eqb (format args) "default" = false) as Hd
        by (apply eqb_other; intuition).
    assert (String.eqb (format args) "csv" = false) as Hc
        by (apply eqb_other; intuition).
    assert (String.eqb (format args) "json" = false) as Hj
        by (apply eqb_other; intuition).
    assert (String.eqb (format args) "yaml" = false) as Hy
        by (apply eqb_other; intuition).
    unfold do_batch. rewrite Hsub, Hd, Hc, Hj, Hy. run_cmd.
    split.
    + destruct (list_batches _) as [batches|e]; simpl; eauto.
    + intros batches ->. reflexivity.
  - intros Hsub Hfmt. simpl in Hfmt.
    assert (String.eqb (format args) "yaml" = false) as Hy
        by (apply eqb_other; intuition).
    assert (String.eqb (format args) "json" = false) as Hj
        by (apply eqb_other; intuition).
    unfold do_batch. rewrite Hsub, Hy, Hj. run_cmd.
    split.
    + destruct (get_batch _ _) as [output|e]; simpl; eauto.
      destruct (match held (key args) with
                | Some k => select_key k output
                | None => Return output
                end) as [selected|e]; simpl; eauto.
    + intros output selected -> Hsel. simpl. rewrite Hsel. reflexivity.
Qed.

(** C10. In the show command with a key, a key of the batch record is
    looked up in the record: the value printed is the record's, whether or
    not the header has the key too. [CliException] is raised only when the
    key is neither in the record nor in its header. *)
Theorem show_key_top_level_first (args : Args) (output : gmap string pyval) :
  subcommand args = "show" ->
  get_batch (RestClient (url args) (user args)) (batch_id args)
  = Return (PDict output) ->
  (forall k top,
     held (key args) = Some k ->
     output !! k = Some top ->
     (format args = "yaml" ->
      do_batch RestClient args = mkCmd (Return tt) [print_yaml top])
     /\ (format args = "json" ->
         do_batch RestClient args = mkCmd (Return tt) [print_json top]))
  /\ (forall msg,
        outcome (do_batch RestClient args) = Raise (CliException msg) ->
        exists k header,
          held (key args) = Some k
          /\ output !! k = None
          /\ output !! "header" = Some header
          /\ contains header k = Return false).
Proof.
  intros Hsub Hget. split.
  - intros k top Hk Htop.
    unfold do_batch. rewrite Hsub, Hget, Hk. run_cmd.
    unfold select_key, contains, getitem. rewrite Htop.
    rewrite bool_decide_eq_true_2 by eauto. simpl.
    split; intros ->; reflexivity.
  - intros msg H.
    unfold do_batch in H. rewrite Hsub, Hget in H.
    unfold mbind, mret, cmd_bind, cmd_ret, lift, call, missing_handler, raise in H.
    simpl in H.
    destruct (held (key args)) as [k|] eqn:Hk; simpl in H.
    + exists k. unfold select_key, contains, getitem in H.
      destruct (output !! k) as [top|] eqn:Htop.
      * rewrite bool_decide_eq_true_2 in H by eauto. simpl in H.
        destruct (String.eqb (format args) "yaml"); simpl in H; [discriminate|].
        destruct (String.eqb (format args) "json"); discriminate.
      * rewrite bool_decide_eq_false_2 in H by (intros [? ?]; discriminate).
        simpl in H.
        destruct (output !! "header") as [header|] eqn:Hheader; simpl in H;
          [|discriminate].
        exists header.
        destruct header as [| | | s | l | d]; simpl in H; try discriminate.
        -- destruct (str_contains k s) eqn:Hs; simpl in H; [discriminate|].
           simpl. rewrite Hs. auto.
        -- destruct (existsb _ l) eqn:Hl; simpl in H; [discriminate|].
           simpl. rewrite Hl. auto.
        -- destruct (d !! k) as [nested|] eqn:Hnested.
           ++ rewrite bool_decide_eq_true_2 in H by eauto. simpl in H.
              destruct (String.eqb (format args) "yaml"); simpl in H; [discriminate|].
              destruct (String.eqb (format args) "json"); discriminate.
           ++ simpl. rewrite Hnested.
              rewrite bool_decide_eq_false_2 by (intros [? ?]; discriminate). auto.
    + destruct (String.eqb (format args) "yaml"); simpl in H; [discriminate|].
      destruct (String.eqb (format args) "json"); discriminate.
Qed.

(** *** Rows of malformed records *)

(** X15. [parse_batch_row] raises [KeyError] for the first missing key,
    in the order in which the row is built: 'header_signature' before
    anything else; then, the transactions being countable, 'header'; then
    'signer_pubkey' inside the header. *)
Theorem parse_batch_row_missing_keys (batch : gmap string pyval) :
  (batch !! "header_signature" = None ->
   parse_batch_row (PDict batch) = Raise (KeyError "header_signature"))
  /\ (forall sig n,
        batch !! "header_signature" = Some sig ->
        len (default (PList []) (batch !! "transactions")) = Return n ->
        (batch !! "header" = None ->
         parse_batch_row (PDict batch) = Raise (KeyError "header"))
        /\ (forall header,
              batch !! "header" = Some (PDict header) ->
              header !! "signer_pubkey" = None ->
              parse_batch_row (PDict batch) = Raise (KeyError "signer_pubkey"))).
Proof.
  unfold parse_batch_row, getitem, get. split.
  - intros ->. reflexivity.
  - intros sig n -> Hlen. simpl. unfold mbind at 1. unfold result_bind.
    rewrite Hlen. simpl. split.
    + intros ->. reflexivity.
    + intros header -> Hpk. simpl. rewrite Hpk. reflexivity.
Qed.

(** X16. The default of [batch.get('transactions', [])] covers only a
    missing key: a record whose 'transactions' is present but is [None], a
    boolean or a number makes [parse_batch_row] raise [TypeError], however
    well-formed the rest of the record is. *)
Theorem parse_batch_row_uncountable
    (batch : gmap string pyval) (sig transactions : pyval) :
  batch !! "header_signature" = Some sig ->
  batch !! "transactions" = Some transactions ->
  match transactions with
  | PNone | PBool _ | PInt _ => True
  | _ => False
  end ->
  exists msg, parse_batch_row (PDict batch) = Raise (TypeError msg).
Proof.
  intros Hsig Htxns Hkind.
  unfold parse_batch_row, getitem, get. rewrite Hsig, Htxns. simpl.
  destruct transactions; try contradiction; simpl; eauto.
Qed.

(** *** Commands *)

(** X17. With a subcommand that is neither "list" nor "show", [do_batch]
    returns without an error and without printing anything. *)
Theorem do_batch_other_subcommand (args : Args) :
  subcommand args <> "list" ->
  subcommand args <> "show" ->
  do_batch RestClient args = mkCmd (Return tt) [].
Proof.
  intros Hl Hs. apply String.eqb_neq in Hl, Hs.
  unfold do_batch. rewrite Hl, Hs. reflexivity.
Qed.

(** X18. An exception of the REST client passes through [do_batch] as it
    is, before the output format is looked at, and nothing is printed. *)
Theorem do_batch_rest_failure (args : Args) (e : exn) :
  let rest_client := RestClient (url args) (user args) in
  (subcommand args = "list" ->
   list_batches rest_client = Raise e ->
   do_batch RestClient args = mkCmd (Raise e) [])
  /\ (subcommand args = "show" ->
      get_batch rest_client (batch_id args) = Raise e ->
      do_batch RestClient args = mkCmd (Raise e) []).
Proof.
  intros rest_client. subst rest_client.
  split; intros Hsub Hfail; unfold do_batch; rewrite Hsub, Hfail; reflexivity.
Qed.

Lemma mapM_Forall2 {A B} (f : A -> result B) (l : list A) (l' : list B) :
  mapM f l = Return l' -> Forall2 (fun a b => f a = Return b) l l'.
Proof.
  revert l'. induction l as [|a l IH]; intros l' H; simpl in H.
  - injection H as <-. constructor.
  - destruct (f a) as [b|e] eqn:Hfa; simpl in H; [|discriminate].
    destruct (mapM f l) as [bs|e]; simpl in H; [|discriminate].
    injection H as <-. constructor; auto.
Qed.

Lemma mapM_first_failure {A B} (f : A -> result B)
    (good : list A) (bad : A) (rest : list A) (done : list B) (e : exn) :
  mapM f good = Return done ->
  f bad = Raise e ->
  mapM f (good ++ bad :: rest)%list = Raise e.
Proof.
  revert done. induction good as [|a good IH]; intros done Hgood Hbad; simpl in *.
  - rewrite Hbad. reflexivity.
  - destruct (f a) as [b|e'] eqn:Hfa; simpl in *; [|discriminate].
    destruct (mapM f good) as [bs|e'] eqn:Hm; simpl in *; [|discriminate].
    rewrite (IH bs eq_refl Hbad). reflexivity.
Qed.

Lemma row_dict_Return (b row : pyval) :
  row_dict b = Return row ->
  exists sig n pk,
    parse_batch_row b = Return (sig, n, pk)
    /\ row = PDict {[ "batch_id" := sig; "txns" := PInt n; "signer" := pk ]}.
Proof.
  unfold row_dict. destruct (parse_batch_row b) as [[[sig n] pk]|e]; simpl.
  - intros H. injection H as <-. exists sig, n, pk. split; reflexivity.
  - discriminate.
Qed.

Lemma mapM_succeeds {A B C} (f : A -> result B) (g : A -> result C)
    (l : list A) (done : list B) :
  (forall a b, f a = Return b -> exists c, g a = Return c) ->
  mapM f l = Return done ->
  exists done', mapM g l = Return done'.
Proof.
  intros Hfg. revert done. induction l as [|a l IH]; intros done H.
  - exists []. reflexivity.
  - cbn [mapM] in *.
    destruct (f a) as [b|e] eqn:Hfa; [|discriminate].
    destruct (mapM f l) as [bs|e] eqn:Hm; [|discriminate].
    destruct (Hfg a b Hfa) as [c Hc]. destruct (IH bs eq_refl) as [cs Hcs].
    rewrite Hc, Hcs. simpl. eauto.
Qed.

Lemma row_dict_succeeds (b : pyval) (row : pyval * Z * pyval) :
  parse_batch_row b = Return row -> exists d, row_dict b = Return d.
Proof.
  intros H. unfold row_dict. rewrite H. destruct row as [[sig n] pk].
  simpl. eauto.
Qed.

(** X19. The JSON and YAML listings print once, a list with one mapping
    per batch, in the order of the batches; each mapping has the entries
    'batch_id', 'txns' and 'signer' with the three components of that
    batch's row. *)
Theorem list_prints_one_row_per_batch
    (args : Args) (batches data : list pyval) :
  subcommand args = "list" ->
  list_batches (RestClient (url args) (user args)) = Return batches ->
  mapM row_dict batches = Return data ->
  (format args = "json" ->
   do_batch RestClient args = mkCmd (Return tt) [print_json (PList data)])
  /\ (format args = "yaml" ->
      do_batch RestClient args = mkCmd (Return tt) [print_yaml (PList data)])
  /\ Forall2 (fun b row =>
                exists sig n pk,
                  parse_batch_row b = Return (sig, n, pk)
                  /\ row = PDict {[ "batch_id" := sig;
                                   "txns" := PInt n;
                                   "signer" := pk ]})
             batches data.
Proof.
  intros Hsub Hlist Hrows. split; [|split].
  - intros Hfmt. unfold do_batch. rewrite Hsub, Hlist, Hfmt. run_cmd.
    rewrite Hrows. reflexivity.
  - intros Hfmt. unfold do_batch. rewrite Hsub, Hlist, Hfmt. run_cmd.
    rewrite Hrows. reflexivity.
  - apply mapM_Forall2 in Hrows.
    eapply Forall2_impl; [exact Hrows|].
    intros b row. apply row_dict_Return.
Qed.

(** X20. In the JSON and YAML listings one malformed batch spoils the
    whole command: the exception of the first batch whose row cannot be
    built is raised, and no row of the batches before it is printed. *)
Theorem list_fails_on_first_bad_batch
    (args : Args) (good : list pyval) (bad : pyval) (rest : list pyval)
    (rows : list (pyval * Z * pyval)) (e : exn) :
  subcommand args = "list" ->
  format args = "json" \/ format args = "yaml" ->
  list_batches (RestClient (url args) (user args)) = Return (good ++ bad :: rest)%list ->
  mapM parse_batch_row good = Return rows ->
  parse_batch_row bad = Raise e ->
  do_batch RestClient args = mkCmd (Raise e) [].
Proof.
  intros Hsub Hfmt Hlist Hgood Hbad.
  destruct (mapM_succeeds parse_batch_row row_dict good rows row_dict_succeeds Hgood)
    as [done Hdone].
  assert (row_dict bad = Raise e) as Hrow
      by (unfold row_dict; rewrite Hbad; reflexivity).
  pose proof (mapM_first_failure row_dict good bad rest done e Hdone Hrow) as Hm.
  unfold do_batch. rewrite Hsub, Hlist.
  destruct Hfmt as [-> | ->]; run_cmd; rewrite Hm; reflexivity.
Qed.

(** *** The show command *)

(** X21. Without a key, and an empty key counts as none, the show command
    prints the batch record as the REST client gave it. *)
Theorem show_without_key (args : Args) (output : pyval) :
  subcommand args = "show" ->
  get_batch (RestClient (url args) (user args)) (batch_id args) = Return output ->
  held (key args) = None ->
  (format args = "yaml" ->
   do_batch RestClient args = mkCmd (Return tt) [print_yaml output])
  /\ (format args = "json" ->
      do_batch RestClient args = mkCmd (Return tt) [print_json output]).
Proof.
  intros Hsub Hget Hkey.
  split; intros Hfmt; unfold do_batch; rewrite Hsub, Hget, Hkey, Hfmt;
    reflexivity.
Qed.

(** X22. A key that the batch record lacks and its header has is looked
    up in the header: the show command prints the header's value. *)
Theorem show_key_from_header
    (args : Args) (output header : gmap string pyval) (k : string) (nested : pyval) :
  subcommand args = "show" ->
  get_batch (RestClient (url args) (user args)) (batch_id args)
  = Return (PDict output) ->
  held (key args) = Some k ->
  output !! k = None ->
  output !! "header" = Some (PDict header) ->
  header !! k = Some nested ->
  (format args = "yaml" ->
   do_batch RestClient args = mkCmd (Return tt) [print_yaml nested])
  /\ (format args = "json" ->
      do_batch RestClient args = mkCmd (Return tt) [print_json nested]).
Proof.
  intros Hsub Hget Hkey Htop Hheader Hnested.
  split; intros Hfmt; unfold do_batch; rewrite Hsub, Hget, Hkey, Hfmt;
    run_cmd; unfold select_key, contains, getitem;
    rewrite Htop, bool_decide_eq_false_2 by (intros [? ?]; discriminate);
    simpl; rewrite Hheader; simpl;
    rewrite Hnested, bool_decide_eq_true_2 by eauto; reflexivity.
Qed.

(** X23. A key that neither the batch record nor its header has makes the
    show command raise [CliException] with a message that quotes the key;
    nothing is printed, and this comes before the output format is looked
    at, so also for a format without a handler. *)
Theorem show_key_not_found
    (args : Args) (output header : gmap string pyval) (k : string) :
  subcommand args = "show" ->
  get_batch (RestClient (url args) (user args)) (batch_id args)
  = Return (PDict output) ->
  held (key args) = Some k ->
  output !! k = None ->
  output !! "header" = Some (PDict header) ->
  header !! k = None ->
  do_batch RestClient args
  = mkCmd (Raise (CliException
                    ("key " ++ dquote ++ k ++ dquote
                     ++ " not found in batch or header"))) [].
Proof.
  intros Hsub Hget Hkey Htop Hheader Hnested.
  unfold do_batch. rewrite Hsub, Hget, Hkey. run_cmd.
  unfold select_key, contains, getitem.
  rewrite Htop, bool_decide_eq_false_2 by (intros [? ?]; discriminate).
  simpl. rewrite Hheader. simpl.
  rewrite Hnested, bool_decide_eq_false_2 by (intros [? ?]; discriminate).
  reflexivity.
Qed.

(** X24. When the batch record has neither the key nor a 'header' entry,
    the show command ends in the [KeyError] of the header lookup, not in
    [CliException]. *)
Theorem show_key_without_header
    (args : Args) (output : gmap string pyval) (k : string) :
  subcommand args = "show" ->
  get_batch (RestClient (url args) (user args)) (batch_id args)
  = Return (PDict output) ->
  held (key args) = Some k ->
  output !! k = None ->
  output !! "header" = None ->
  do_batch RestClient args = mkCmd (Raise (KeyError "header")) [].
Proof.
  intros Hsub Hget Hkey Htop Hheader.
  unfold do_batch. rewrite Hsub, Hget, Hkey. run_cmd.
  unfold select_key, contains, getitem.
  rewrite Htop, bool_decide_eq_false_2 by (intros [? ?]; discriminate).
  simpl. rewrite Hheader. reflexivity.
Qed.

End BatchProperties.

(** *** Instances on the sample records *)

Section BatchInstances.
Import Py Batch Samples.

Lemma parse_batch_row_projects_witness :
  batch1 !! "header_signature" = Some (PStr "abc")
  /\ batch1 !! "transactions" = Some (PList [PStr "t1"; PStr "t2"])
  /\ batch1 !! "header" = Some (PDict header1)
  /\ header1 !! "signer_pubkey" = Some (PStr "pk1")
  /\ parse_batch_row (PDict batch1) = Return (PStr "abc", 2, PStr "pk1").
Proof.
  repeat (split; [reflexivity|]).
  exact (parse_batch_row_projects batch1 header1 (PStr "abc") (PStr "pk1")
           [PStr "t1"; PStr "t2"] eq_refl eq_refl eq_refl eq_refl).
Defined.

Lemma do_batch_missing_handler_witness :
  do_batch (rest batch1) (list_args "xml")
  = mkCmd (Raise (AssertionError "Missing handler: xml")) []
  /\ do_batch (rest batch1) (show_args "xml" (Some "signer_pubkey"))
     = mkCmd (Raise (AssertionError "Missing handler: xml")) [].
Proof.
  split.
  - refine (proj2 (proj1 (do_batch_missing_handler (rest batch1) (list_args "xml"))
                         eq_refl _) [PDict batch1] eq_refl).
    simpl. intros H. decompose [or] H; discriminate || assumption.
  - refine (proj2 (proj2 (do_batch_missing_handler (rest batch1)
                            (show_args "xml" (Some "signer_pubkey")))
                         eq_refl _) (PDict batch1) (PStr "pk1") eq_refl eq_refl).
    simpl. intros H. decompose [or] H; discriminate || assumption.
Defined.

Lemma show_key_top_level_first_witness :
  batch2 !! "signer_pubkey" = Some (PStr "top")
  /\ header2 !! "signer_pubkey" = Some (PStr "nested")
  /\ do_batch (rest batch2) (show_args "yaml" (Some "signer_pubkey"))
     = mkCmd (Return tt) [print_yaml (PStr "top")].
Proof.
  split; [reflexivity|]. split; [reflexivity|].
  exact (proj1 (proj1 (show_key_top_level_first (rest batch2)
                         (show_args "yaml" (Some "signer_pubkey")) batch2
                         eq_refl eq_refl)
                      "signer_pubkey" (PStr "top") eq_refl eq_refl)
               eq_refl).
Defined.

Lemma parse_batch_row_no_transactions_witness :
  batch2 !! "transactions" = None
  /\ parse_batch_row (PDict batch2) = Return (PStr "abc", 0, PStr "nested").
Proof.
  split; [reflexivity|].
  exact (parse_batch_row_no_transactions batch2 header2 (PStr "abc") (PStr "nested")
           eq_refl eq_refl eq_refl eq_refl).
Defined.

Lemma parse_batch_row_missing_keys_witness :
  batch_bare !! "header_signature" = Some (PStr "abc")
  /\ batch_bare !! "header" = None
  /\ parse_batch_row (PDict batch_bare) = Raise (KeyError "header").
Proof.
  split; [reflexivity|]. split; [reflexivity|].
  exact (proj1 (proj2 (parse_batch_row_missing_keys batch_bare)
                      (PStr "abc") 0 eq_refl eq_refl)
               eq_refl).
Defined.

Lemma parse_batch_row_uncountable_witness :
  batch_null_transactions !! "transactions" = Some PNone
  /\ exists msg,
       parse_batch_row (PDict batch_null_transactions) = Raise (TypeError msg).
Proof.
  split; [reflexivity|].
  exact (parse_batch_row_uncountable batch_null_transactions (PStr "abc") PNone
           eq_refl eq_refl I).
Defined.

Lemma do_batch_other_subcommand_witness :
  subcommand other_args = "state"
  /\ do_batch (rest batch1) other_args = mkCmd (Return tt) [].
Proof.
  split; [reflexivity|].
  apply (do_batch_other_subcommand (rest batch1) other_args); discriminate.
Defined.

Lemma do_batch_rest_failure_witness :
  list_batches (rest_down None None) = Raise (CliException "Unable to connect")
  /\ do_batch rest_down (list_args "json")
     = mkCmd (Raise (CliException "Unable to connect")) [].
Proof.
  split; [reflexivity|].
  exact (proj1 (do_batch_rest_failure rest_down (list_args "json")
                  (CliException "Unable to connect"))
               eq_refl eq_refl).
Defined.

Lemma list_prints_one_row_per_batch_witness :
  do_batch (rest batch1) (list_args "json")
  = mkCmd (Return tt)
          [print_json
             (PList [PDict {[ "batch_id" := PStr "abc";
                              "txns" := PInt 2;
                              "signer" := PStr "pk1" ]}])].
Proof.
  exact (proj1 (list_prints_one_row_per_batch (rest batch1) (list_args "json")
                  [PDict batch1]
                  [PDict {[ "batch_id" := PStr "abc";
                            "txns" := PInt 2;
                            "signer" := PStr "pk1" ]}]
                  eq_refl eq_refl eq_refl)
               eq_refl).
Defined.

Lemma list_fails_on_first_bad_batch_witness :
  parse_batch_row (PDict batch_bare) = Raise (KeyError "header")
  /\ do_batch (rest_list [PDict batch1; PDict batch_bare; PDict batch1])
              (list_args "yaml")
     = mkCmd (Raise (KeyError "header")) [].
Proof.
  split; [reflexivity|].
  exact (list_fails_on_first_bad_batch
           (rest_list [PDict batch1; PDict batch_bare; PDict batch1])
           (list_args "yaml") [PDict batch1] (PDict batch_bare) [PDict batch1]
           [(PStr "abc", 2, PStr "pk1")] (KeyError "header")
           eq_refl (or_intror eq_refl) eq_refl eq_refl eq_refl).
Defined.

Lemma show_without_key_witness :
  held (key (show_args "json" (Some EmptyString))) = None
  /\ do_batch (rest batch1) (show_args "json" (Some EmptyString))
     = mkCmd (Return tt) [print_json (PDict batch1)].
Proof.
  split; [reflexivity|].
  exact (proj2 (show_without_key (rest batch1) (show_args "json" (Some EmptyString))
                  (PDict batch1) eq_refl eq_refl eq_refl)
               eq_refl).
Defined.

Lemma show_key_from_header_witness :
  batch1 !! "signer_pubkey" = None
  /\ header1 !! "signer_pubkey" = Some (PStr "pk1")
  /\ do_batch (rest batch1) (show_args "yaml" (Some "signer_pubkey"))
     = mkCmd (Return tt) [print_yaml (PStr "pk1")].
Proof.
  split; [reflexivity|]. split; [reflexivity|].
  exact (proj1 (show_key_from_header (rest batch1)
                  (show_args "yaml" (Some "signer_pubkey")) batch1 header1
                  "signer_pubkey" (PStr "pk1")
                  eq_refl eq_refl eq_refl eq_refl eq_refl eq_refl)
               eq_refl).
Defined.

Lemma show_key_not_found_witness :
  batch1 !! "nonce" = None
  /\ header1 !! "nonce" = None
  /\ outcome (do_batch (rest batch1) (show_args "xml" (Some "nonce")))
     = Raise (CliException
                ("key " ++ dquote ++ "nonce" ++ dquote
                 ++ " not found in batch or header")).
Proof.
  split; [reflexivity|]. split; [reflexivity|].
  exact (f_equal outcome
           (show_key_not_found (rest batch1) (show_args "xml" (Some "nonce"))
              batch1 header1 "nonce"
              eq_refl eq_refl eq_refl eq_refl eq_refl eq_refl)).
Defined.

Lemma show_key_without_header_witness :
  batch_bare !! "signer_pubkey" = None
  /\ batch_bare !! "header" = None
  /\ do_batch (rest batch_bare) (show_args "yaml" (Some "signer_pubkey"))
     = mkCmd (Raise (KeyError "header")) [].
Proof.
  split; [reflexivity|]. split; [reflexivity|].
  exact (show_key_without_header (rest batch_bare)
           (show_args "yaml" (Some "signer_pubkey")) batch_bare "signer_pubkey"
           eq_refl eq_refl eq_refl eq_refl eq_refl).
Defined.

End BatchInstances.
